(** * The data-type registry of the robot telemetry streaming demo

    A shallow embedding of [data-types.ts]: the enumeration of data types,
    the static table [DATA_TYPE_DEFINITIONS], and the utility functions
    [getDataTypeForFile], [getMimeTypeForFile], [getPrimaryMimeType],
    [validatePayloadSize] and [matchesSuffix], and the nine type guards,
    followed by the properties of the registry.

    Conventions of the embedding.
    - A JavaScript string is a sequence of code units.  File names are
      modelled by [string], whose characters are the 256 code units
      U+0000..U+00FF (ASCII and the Latin-1 supplement); that block is closed
      under [String.prototype.toLowerCase], which is modelled on it exactly.
    - The exported constant is a JavaScript object: [const] fixes the
      binding, not the contents.  The functions are therefore written in a
      small state monad over the table, so that what they read and what
      they leave behind is explicit.  A property read on [undefined] is a
      [TypeError].
    - Sizes are integral byte counts; the division by [1024 * 1024] is a
      scaling by a power of two, exact on floating-point numbers, and is
      carried out in [Q]. *)

From Stdlib Require Import String Ascii List Bool Arith ZArith QArith Lia.
Import ListNotations.

Local Open Scope string_scope.
Local Open Scope list_scope.
Local Open Scope nat_scope.

(* ===================================================================== *)
(** ** The string built-ins used by the module *)
(* ===================================================================== *)

Module JsString.

(** Lower-case mapping of one code unit of U+0000..U+00FF: [A-Z] and the
    Latin-1 capitals U+00C0..U+00DE (U+00D7, the multiplication sign, is
    not a letter) move up by 32; everything else maps to itself. *)
Definition lowerCodeUnit (c : ascii) : ascii :=
  let n := nat_of_ascii c in
  if (65 <=? n) && (n <=? 90) then ascii_of_nat (n + 32)
  else if (192 <=? n) && (n <=? 222) && negb (n =? 215) then ascii_of_nat (n + 32)
  else c.

(** [String.prototype.toLowerCase] *)
Fixpoint toLowerCase (s : string) : string :=
  match s with
  | EmptyString => EmptyString
  | String c rest => String (lowerCodeUnit c) (toLowerCase rest)
  end.

(** [String.prototype.endsWith(searchString)] with the default end
    position: the search string is compared with the last
    [length searchString] code units; a search string longer than the
    receiver never matches. *)
Definition endsWith (s searchString : string) : bool :=
  let len := String.length s in
  let searchLength := String.length searchString in
  if len <? searchLength then false
  else String.eqb (substring (len - searchLength) searchLength s) searchString.

End JsString.
Import JsString.

(** [Array.prototype.some] and [Array.prototype.includes] on strings. *)
Definition some {A : Type} (p : A -> bool) (xs : list A) : bool := existsb p xs.

Definition includes (xs : list string) (x : string) : bool :=
  existsb (String.eqb x) xs.

(* ===================================================================== *)
(** ** Data model *)
(* ===================================================================== *)

Inductive DataTypeEnum : Type :=
| TIME_SERIES | PARAMETERS | IMAGES | VIDEO | AUDIO
| LOG | MARKDOWN | FILE | CSV | SAFETENSORS.

(** The string value of each member; these are the keys of the table. *)
Definition enumValue (d : DataTypeEnum) : string :=
  match d with
  | TIME_SERIES => "time_series"
  | PARAMETERS => "parameters"
  | IMAGES => "images"
  | VIDEO => "video"
  | AUDIO => "audio"
  | LOG => "log"
  | MARKDOWN => "markdown"
  | FILE => "file"
  | CSV => "csv"
  | SAFETENSORS => "safetensors"
  end.

Definition allDataTypes : list DataTypeEnum :=
  [TIME_SERIES; PARAMETERS; IMAGES; VIDEO; AUDIO;
   LOG; MARKDOWN; FILE; CSV; SAFETENSORS].

(** [a === b] on members of the enumeration compares their string values. *)
Definition strictEq (a b : DataTypeEnum) : bool :=
  String.eqb (enumValue a) (enumValue b).

Inductive StorageBackend : Type := mongodb | s3 | both.

Record DataTypeDefinition : Type := mkDefinition {
  type : DataTypeEnum;
  mimeTypes : list string;
  fileSuffixes : list string;
  description : string;
  storageBackend : StorageBackend;
  compressionSupported : bool;
  streamingSupported : bool;
  maxSizeMB : option Z
}.

(** An object with string keys, as its own enumerable properties in
    insertion order; [Object.entries] lists them in this order. *)
Definition Registry : Type := list (DataTypeEnum * DataTypeDefinition).

Definition DATA_TYPE_DEFINITIONS : Registry :=
  [ (TIME_SERIES,
     {| type := TIME_SERIES;
        mimeTypes := ["application/json"; "application/x-msgpack"; "application/cbor"];
        fileSuffixes := [".json"; ".msgpack"; ".cbor"; ".timeseries"];
        description := "Time-indexed numerical data (telemetry, sensors, metrics)";
        storageBackend := mongodb;
        compressionSupported := true;
        streamingSupported := true;
        maxSizeMB := Some 100%Z |});
    (PARAMETERS,
     {| type := PARAMETERS;
        mimeTypes := ["application/json"; "application/yaml"; "application/toml"];
        fileSuffixes := [".json"; ".yaml"; ".yml"; ".toml"; ".params"];
        description := "Configuration parameters and hyperparameters";
        storageBackend := mongodb;
        compressionSupported := false;
        streamingSupported := false;
        maxSizeMB := Some 10%Z |});
    (IMAGES,
     {| type := IMAGES;
        mimeTypes := ["image/jpeg"; "image/png"; "image/webp"; "image/tiff";
                      "image/bmp"; "image/gif"; "image/svg+xml"; "image/x-raw"];
        fileSuffixes := [".jpg"; ".jpeg"; ".png"; ".webp"; ".tiff"; ".tif"; ".bmp";
                         ".gif"; ".svg"; ".raw"; ".nef"; ".cr2"; ".arw"];
        description := "Static images including RGB, depth, thermal, and raw sensor data";
        storageBackend := s3;
        compressionSupported := true;
        streamingSupported := false;
        maxSizeMB := Some 50%Z |});
    (VIDEO,
     {| type := VIDEO;
        mimeTypes := ["video/mp4"; "video/webm"; "video/x-msvideo"; "video/quicktime";
                      "video/x-matroska"; "video/H264"; "video/H265"];
        fileSuffixes := [".mp4"; ".webm"; ".avi"; ".mov"; ".mkv"; ".h264"; ".h265";
                         ".hevc"; ".m4v"; ".wmv"];
        description := "Video streams from cameras and recorded sessions";
        storageBackend := s3;
        compressionSupported := true;
        streamingSupported := true;
        maxSizeMB := Some 5000%Z |});
    (AUDIO,
     {| type := AUDIO;
        mimeTypes := ["audio/mpeg"; "audio/wav"; "audio/ogg"; "audio/webm";
                      "audio/aac"; "audio/flac"; "audio/opus"];
        fileSuffixes := [".mp3"; ".wav"; ".ogg"; ".webm"; ".aac"; ".flac"; ".opus";
                         ".m4a"; ".wma"];
        description := "Audio recordings and streams from microphones";
        storageBackend := s3;
        compressionSupported := true;
        streamingSupported := true;
        maxSizeMB := Some 500%Z |});
    (LOG,
     {| type := LOG;
        mimeTypes := ["text/plain"; "application/x-ndjson"; "text/x-log"];
        fileSuffixes := [".log"; ".txt"; ".ndjson"; ".jsonl"; ".stdout"; ".stderr"];
        description := "Text logs from system components and applications";
        storageBackend := mongodb;
        compressionSupported := true;
        streamingSupported := true;
        maxSizeMB := Some 100%Z |});
    (MARKDOWN,
     {| type := MARKDOWN;
        mimeTypes := ["text/markdown"; "text/x-markdown"; "text/plain"];
        fileSuffixes := [".md"; ".markdown"; ".mdown"; ".mkd"];
        description := "Documentation and formatted text notes";
        storageBackend := mongodb;
        compressionSupported := true;
        streamingSupported := false;
        maxSizeMB := Some 10%Z |});
    (FILE,
     {| type := FILE;
        mimeTypes := ["application/octet-stream"; "*/*"];
        fileSuffixes := ["*"];
        description := "Generic file storage for any binary or text data";
        storageBackend := s3;
        compressionSupported := true;
        streamingSupported := false;
        maxSizeMB := Some 1000%Z |});
    (CSV,
     {| type := CSV;
        mimeTypes := ["text/csv"; "application/csv"; "text/tab-separated-values"];
        fileSuffixes := [".csv"; ".tsv"; ".tab"];
        description := "Tabular data in comma or tab-separated format";
        storageBackend := both;
        compressionSupported := true;
        streamingSupported := false;
        maxSizeMB := Some 500%Z |});
    (SAFETENSORS,
     {| type := SAFETENSORS;
        mimeTypes := ["application/x-safetensors"; "application/octet-stream"];
        fileSuffixes := [".safetensors"; ".st"];
        description := "Safe serialization format for ML model tensors";
        storageBackend := s3;
        compressionSupported := false;
        streamingSupported := false;
        maxSizeMB := Some 10000%Z |}) ].

(** The base payload.  The two fields of type [any] ([metadata] and [data])
    are not read by any function of the module and are left out. *)
Record DataPayload : Type := mkPayload {
  timestamp : Z;
  robotId : string;
  sessionId : string;
  dataType : DataTypeEnum;
  sequenceNumber : Z;
  mimeType : option string;
  encoding : option string;
  compression : option string;
  originalSize : option Z;
  compressedSize : option Z;
  checksum : option string;
  s3Key : option string;
  mongodbId : option string
}.

(* ===================================================================== *)
(** ** The monad of the module: reads of the shared table, and exceptions *)
(* ===================================================================== *)

Inductive Completion (A : Type) : Type :=
| Normal (a : A)
| TypeError.
Arguments Normal {A} a.
Arguments TypeError {A}.

Definition M (A : Type) : Type := Registry -> Completion A * Registry.

Definition ret {A : Type} (a : A) : M A := fun tbl => (Normal a, tbl).

Definition bind {A B : Type} (m : M A) (k : A -> M B) : M B :=
  fun tbl =>
    match m tbl with
    | (Normal a, tbl') => k a tbl'
    | (TypeError, tbl') => (TypeError, tbl')
    end.

Definition throwTypeError {A : Type} : M A := fun tbl => (TypeError, tbl).

Declare Scope js_scope.
Delimit Scope js_scope with js.
Notation "x <- m ;; k" := (bind m (fun x => k))
  (at level 61, m at next level, right associativity) : js_scope.
Local Open Scope js_scope.

(** [Object.entries(DATA_TYPE_DEFINITIONS)] *)
Definition Object_entries : M (list (DataTypeEnum * DataTypeDefinition)) :=
  fun tbl => (Normal tbl, tbl).

(** The property of an object under a key: the first entry carrying it. *)
Fixpoint property (tbl : Registry) (key : DataTypeEnum) : option DataTypeDefinition :=
  match tbl with
  | [] => None
  | (k, definition) :: rest =>
      if strictEq k key then Some definition else property rest key
  end.

(** [DATA_TYPE_DEFINITIONS[key]], about to be dereferenced: reading a field
    of a missing entry throws. *)
Definition definitionOf (key : DataTypeEnum) : M DataTypeDefinition :=
  fun tbl =>
    match property tbl key with
    | Some definition => (Normal definition, tbl)
    | None => (TypeError, tbl)
    end.

(** The result of a call and the table it leaves, from a given table. *)
Definition result {A : Type} (m : M A) (tbl : Registry) : Completion A := fst (m tbl).
Definition tableAfter {A : Type} (m : M A) (tbl : Registry) : Registry := snd (m tbl).

(** A call against the table as the module initialises it. *)
Definition call {A : Type} (m : M A) : Completion A := result m DATA_TYPE_DEFINITIONS.

(* ===================================================================== *)
(** ** Utility functions *)
(* ===================================================================== *)

(** The [for ... of] loop of [getDataTypeForFile] over the entries. *)
Fixpoint getDataTypeForFile_loop
    (entries : list (DataTypeEnum * DataTypeDefinition)) (filename : string)
  : DataTypeEnum :=
  match entries with
  | [] => FILE
  | (dtype, definition) :: rest =>
      if strictEq dtype FILE then getDataTypeForFile_loop rest filename
      else
        let matches :=
          some (fun suffix => endsWith (toLowerCase filename) suffix)
               (fileSuffixes definition) in
        if matches then dtype else getDataTypeForFile_loop rest filename
  end.

Definition getDataTypeForFile (filename : string) : M DataTypeEnum :=
  entries <- Object_entries ;;
  ret (getDataTypeForFile_loop entries filename).

(** [x || dflt] for [x] an array element: [undefined] and the empty string
    are falsy. *)
Definition truthyString (x : option string) : bool :=
  match x with
  | Some (String _ _) => true
  | _ => false
  end.

Definition orString (x : option string) (dflt : string) : string :=
  match x with
  | Some (String c s) => String c s
  | _ => dflt
  end.

Definition getMimeTypeForFile (filename : string) : M string :=
  dtype <- getDataTypeForFile filename ;;
  definition <- definitionOf dtype ;;
  ret (orString (nth_error (mimeTypes definition) 0) "application/octet-stream").

Definition getPrimaryMimeType (dataType : DataTypeEnum) : M string :=
  definition <- definitionOf dataType ;;
  ret (orString (nth_error (mimeTypes definition) 0) "application/octet-stream").

(** [!x] and [x || 0] for an optional number: [undefined] and [0] are
    falsy. *)
Definition truthyNumber (x : option Z) : bool :=
  match x with
  | Some z => negb (z =? 0)%Z
  | None => false
  end.

Definition orZero (x : option Z) : Z :=
  match x with
  | Some z => z
  | None => 0%Z
  end.

Definition validatePayloadSize (payload : DataPayload) : M bool :=
  definition <- definitionOf (dataType payload) ;;
  if negb (truthyNumber (maxSizeMB definition)) then ret true
  else
    let sizeMB := (inject_Z (orZero (originalSize payload)) / inject_Z (1024 * 1024))%Q in
    ret (Qle_bool sizeMB (inject_Z (orZero (maxSizeMB definition)))).

Definition matchesSuffix (filename : string) (dataType : DataTypeEnum) : M bool :=
  definition <- definitionOf dataType ;;
  if includes (fileSuffixes definition) "*" then ret true
  else
    ret (some (fun suffix => endsWith (toLowerCase filename) suffix)
              (fileSuffixes definition)).

(* ===================================================================== *)
(** ** Type guards *)
(* ===================================================================== *)

Definition isTimeSeriesData (payload : DataPayload) : bool :=
  strictEq (dataType payload) TIME_SERIES.

Definition isImageData (payload : DataPayload) : bool :=
  strictEq (dataType payload) IMAGES.

Definition isVideoData (payload : DataPayload) : bool :=
  strictEq (dataType payload) VIDEO.

Definition isAudioData (payload : DataPayload) : bool :=
  strictEq (dataType payload) AUDIO.

Definition isLogData (payload : DataPayload) : bool :=
  strictEq (dataType payload) LOG.

Definition isMarkdownData (payload : DataPayload) : bool :=
  strictEq (dataType payload) MARKDOWN.

Definition isCsvData (payload : DataPayload) : bool :=
  strictEq (dataType payload) CSV.

Definition isSafetensorsData (payload : DataPayload) : bool :=
  strictEq (dataType payload) SAFETENSORS.

Definition isFileData (payload : DataPayload) : bool :=
  strictEq (dataType payload) FILE.

(** The type guards the module exports, in source order. *)
Definition typeGuards : list (DataPayload -> bool) :=
  [isTimeSeriesData; isImageData; isVideoData; isAudioData; isLogData;
   isMarkdownData; isCsvData; isSafetensorsData; isFileData].

(* ===================================================================== *)
(** ** Vocabulary of the properties *)
(* ===================================================================== *)

(** The test of the loop body: some suffix of the definition ends the
    lower-cased file name. *)
Definition suffixMatches (definition : DataTypeDefinition) (filename : string) : bool :=
  some (fun suffix => endsWith (toLowerCase filename) suffix) (fileSuffixes definition).

(** The entries of a table other than the generic one. *)
Definition specificEntries (tbl : Registry) : Registry :=
  filter (fun entry => negb (strictEq (fst entry) FILE)) tbl.

(** All the suffixes the search can meet in a table. *)
Definition specificSuffixes (tbl : Registry) : list string :=
  flat_map (fun entry => fileSuffixes (snd entry)) (specificEntries tbl).

(** The check that no suffix of a list properly ends another one of the
    list: whenever one ends with the other, they are equally long. *)
Definition noNestedSuffixes (suffixes : list string) : bool :=
  forallb (fun s =>
    forallb (fun s' =>
      implb (endsWith s s') (String.length s =? String.length s')) suffixes)
    suffixes.

(** The ceiling of a definition in bytes: [maxSizeMB] mebibytes. *)
Definition maxSizeBytes (definition : DataTypeDefinition) : option Z :=
  option_map (fun mb => mb * (1024 * 1024))%Z (maxSizeMB definition).

(** A payload of a given data type and size, for the examples. *)
Definition samplePayload (d : DataTypeEnum) (size : option Z) : DataPayload :=
  {| timestamp := 1700000000000; robotId := "robot-1"; sessionId := "session-1";
     dataType := d; sequenceNumber := 1;
     mimeType := None; encoding := None; compression := None;
     originalSize := size; compressedSize := None; checksum := None;
     s3Key := None; mongodbId := None |}.

(** A table whose [parameters] entry has no ceiling. *)
Definition unlimitedParameters : Registry :=
  [ (PARAMETERS,
     {| type := PARAMETERS;
        mimeTypes := ["application/json"];
        fileSuffixes := [".params"];
        description := "Configuration parameters and hyperparameters";
        storageBackend := mongodb;
        compressionSupported := false;
        streamingSupported := false;
        maxSizeMB := None |}) ].

(** A computation is read-only when it hands back the table it was given. *)
Definition readOnly {A : Type} (m : M A) : Prop :=
  forall tbl : Registry, tableAfter m tbl = tbl.

(** One invocation of an exported function, with its arguments. *)
Inductive Invocation : Type :=
| GetDataTypeForFile (filename : string)
| GetMimeTypeForFile (filename : string)
| GetPrimaryMimeType (dataType : DataTypeEnum)
| ValidatePayloadSize (payload : DataPayload)
| MatchesSuffix (filename : string) (dataType : DataTypeEnum).

Inductive Value : Type :=
| DataTypeValue (d : DataTypeEnum)
| StringValue (s : string)
| BooleanValue (b : bool).

Definition perform (i : Invocation) : M Value :=
  match i with
  | GetDataTypeForFile filename =>
      d <- getDataTypeForFile filename ;; ret (DataTypeValue d)
  | GetMimeTypeForFile filename =>
      s <- getMimeTypeForFile filename ;; ret (StringValue s)
  | GetPrimaryMimeType dataType =>
      s <- getPrimaryMimeType dataType ;; ret (StringValue s)
  | ValidatePayloadSize payload =>
      b <- validatePayloadSize payload ;; ret (BooleanValue b)
  | MatchesSuffix filename dataType =>
      b <- matchesSuffix filename dataType ;; ret (BooleanValue b)
  end.

(** A caller making invocations one after the other, each on the table
    the previous one left, and collecting how each completes. *)
Fixpoint performAll (invocations : list Invocation) (tbl : Registry)
  : list (Completion Value) * Registry :=
  match invocations with
  | [] => ([], tbl)
  | i :: rest =>
      let (completion, tbl') := perform i tbl in
      let (completions, tbl'') := performAll rest tbl' in
      (completion :: completions, tbl'')
  end.

(** Whether a code unit occurs in a string. *)
Fixpoint occursIn (c : ascii) (s : string) : bool :=
  match s with
  | EmptyString => false
  | String c' rest => Ascii.eqb c' c || occursIn c rest
  end.

(** The first code unit of every string of a list is a given one. *)
Definition allStartWith (c : ascii) (suffixes : list string) : bool :=
  forallb (fun s => match s with
                    | String c' _ => Ascii.eqb c' c
                    | EmptyString => false
                    end) suffixes.

(** Every string of a list is its own lower-case form. *)
Definition allLowerCase (suffixes : list string) : bool :=
  forallb (fun s => String.eqb (toLowerCase s) s) suffixes.

(** A table holding one entry, for the examples. *)
Definition singleEntry (d : DataTypeEnum) (mimes suffixes : list string)
           (limit : option Z) : Registry :=
  [ (d,
     {| type := d;
        mimeTypes := mimes;
        fileSuffixes := suffixes;
        description := "";
        storageBackend := s3;
        compressionSupported := false;
        streamingSupported := false;
        maxSizeMB := limit |}) ].

(* ===================================================================== *)
(** ** Facts about the string built-ins *)
(* ===================================================================== *)

Module JsStringFacts.

Lemma lowerCodeUnit_idempotent (c : ascii) :
  lowerCodeUnit (lowerCodeUnit c) = lowerCodeUnit c.
Proof.
  destruct c as [[] [] [] [] [] [] [] []]; vm_compute; reflexivity.
Qed.

Lemma toLowerCase_idempotent (s : string) :
  toLowerCase (toLowerCase s) = toLowerCase s.
Proof.
  induction s as [| c rest IH]; simpl.
  - reflexivity.
  - now rewrite lowerCodeUnit_idempotent, IH.
Qed.

Lemma toLowerCase_length (s : string) :
  String.length (toLowerCase s) = String.length s.
Proof.
  induction s as [| c rest IH]; simpl; congruence.
Qed.

Lemma length_append (p s : string) :
  String.length (p ++ s)%string = String.length p + String.length s.
Proof.
  induction p as [| c p IH]; simpl; congruence.
Qed.

Lemma substring_all (s : string) :
  substring 0 (String.length s) s = s.
Proof.
  induction s as [| c s IH]; simpl; congruence.
Qed.

Lemma substring_skip_prefix (p s : string) :
  substring (String.length p) (String.length s) (p ++ s)%string = s.
Proof.
  induction p as [| c p IH]; simpl.
  - apply substring_all.
  - exact IH.
Qed.

(** A string splits at any position into a prefix and the rest. *)
Lemma split_at (n : nat) :
  forall (s : string) (m : nat),
    n + m = String.length s ->
    s = (substring 0 n s ++ substring n m s)%string.
Proof.
  induction n as [| n IH]; intros s m H.
  - simpl in H. subst m. rewrite substring_all.
    destruct s; reflexivity.
  - destruct s as [| c s]; simpl in H; [discriminate |].
    simpl. f_equal. apply IH. lia.
Qed.

(** [endsWith] decides "is a suffix of". *)
Lemma endsWith_iff (s suffix : string) :
  endsWith s suffix = true <-> exists p, s = (p ++ suffix)%string.
Proof.
  unfold endsWith. split.
  - destruct (String.length s <? String.length suffix) eqn:E; [discriminate |].
    apply Nat.ltb_ge in E. intro H. apply String.eqb_eq in H.
    remember (String.length suffix) as m eqn:Hm.
    exists (substring 0 (String.length s - m) s).
    rewrite <- H. apply split_at. lia.
  - intros [p ->]. rewrite length_append.
    replace (String.length p + String.length suffix <? String.length suffix)
      with false by (symmetry; apply Nat.ltb_ge; lia).
    replace (String.length p + String.length suffix - String.length suffix)
      with (String.length p) by lia.
    rewrite substring_skip_prefix. apply String.eqb_refl.
Qed.

(** Of two suffixes of one string, the shorter is a suffix of the longer. *)
Lemma suffixes_nest (p' : string) :
  forall p s s' : string,
    (p ++ s)%string = (p' ++ s')%string ->
    String.length s' <= String.length s ->
    exists q, s = (q ++ s')%string.
Proof.
  induction p' as [| c p' IH]; intros p s s' H Hlen.
  - simpl in H. subst s'. rewrite length_append in Hlen.
    destruct p as [| d p]; simpl in Hlen; [| lia].
    exists EmptyString. reflexivity.
  - destruct p as [| d p].
    + simpl in H. exists (String c p'). exact H.
    + simpl in H. injection H as _ H. eapply IH; eauto.
Qed.

Lemma endsWith_nest (g s s' : string) :
  endsWith g s = true -> endsWith g s' = true ->
  String.length s' <= String.length s ->
  endsWith s s' = true.
Proof.
  intros H H' Hlen.
  apply endsWith_iff in H. apply endsWith_iff in H'.
  destruct H as [p ->]. destruct H' as [p' H'].
  apply endsWith_iff. eapply suffixes_nest; eauto.
Qed.

End JsStringFacts.
Import JsStringFacts.

(* ===================================================================== *)
(** ** Facts about the lookup by suffix *)
(* ===================================================================== *)

Lemma strictEq_true_iff (a b : DataTypeEnum) : strictEq a b = true <-> a = b.
Proof.
  split.
  - destruct a, b; vm_compute; intro H; try reflexivity; discriminate H.
  - intros ->. apply String.eqb_refl.
Qed.

Lemma strictEq_false_iff (a b : DataTypeEnum) : strictEq a b = false <-> a <> b.
Proof.
  rewrite <- strictEq_true_iff. destruct (strictEq a b); split; congruence.
Qed.

Lemma suffixMatches_true_iff (definition : DataTypeDefinition) (filename : string) :
  suffixMatches definition filename = true <->
  exists suffix, In suffix (fileSuffixes definition) /\
                 endsWith (toLowerCase filename) suffix = true.
Proof. unfold suffixMatches, some. apply existsb_exists. Qed.

Lemma getDataTypeForFile_run (filename : string) (tbl : Registry) :
  getDataTypeForFile filename tbl = (Normal (getDataTypeForFile_loop tbl filename), tbl).
Proof. reflexivity. Qed.

Lemma loop_cons (dtype : DataTypeEnum) (definition : DataTypeDefinition)
      (rest : Registry) (filename : string) :
  getDataTypeForFile_loop ((dtype, definition) :: rest) filename =
  if strictEq dtype FILE then getDataTypeForFile_loop rest filename
  else if suffixMatches definition filename then dtype
       else getDataTypeForFile_loop rest filename.
Proof. reflexivity. Qed.

(** The loop answers [FILE] exactly when no specific entry matches. *)
Lemma loop_FILE_iff (tbl : Registry) (filename : string) :
  getDataTypeForFile_loop tbl filename = FILE <->
  forall dtype definition,
    In (dtype, definition) tbl -> dtype <> FILE ->
    suffixMatches definition filename = false.
Proof.
  induction tbl as [| [k def] rest IH].
  - simpl. split; [intros _ ? ? [] | reflexivity].
  - rewrite loop_cons. destruct (strictEq k FILE) eqn:Ek.
    + apply strictEq_true_iff in Ek. subst k. rewrite IH. split.
      * intros H d defn [Heq | Hin] Hne; [inversion Heq; congruence | eauto].
      * intros H d defn Hin Hne. apply (H d defn); [right; exact Hin | exact Hne].
    + apply strictEq_false_iff in Ek.
      destruct (suffixMatches def filename) eqn:Em.
      * split; [congruence |].
        intro H. specialize (H k def (or_introl eq_refl) Ek). congruence.
      * rewrite IH. split.
        -- intros H d defn [Heq | Hin] Hne; [inversion Heq; subst; exact Em | eauto].
        -- intros H d defn Hin Hne. apply (H d defn); [right; exact Hin | exact Hne].
Qed.

(** An answer other than [FILE] is the key of a matching entry, and no
    specific entry before it matches. *)
Lemma loop_specific (tbl : Registry) (filename : string) (d : DataTypeEnum) :
  getDataTypeForFile_loop tbl filename = d -> d <> FILE ->
  exists before definition after,
    tbl = before ++ (d, definition) :: after /\
    suffixMatches definition filename = true /\
    forall k defn, In (k, defn) before -> k <> FILE ->
                   suffixMatches defn filename = false.
Proof.
  induction tbl as [| [k def] rest IH]; intros H Hne.
  - simpl in H. congruence.
  - rewrite loop_cons in H. destruct (strictEq k FILE) eqn:Ek.
    + apply strictEq_true_iff in Ek. subst k.
      destruct (IH H Hne) as (before & defn & after & -> & Hm & Hb).
      exists ((FILE, def) :: before), defn, after. repeat split; auto.
      intros k' d' [Heq | Hin] Hk; [inversion Heq; congruence | eauto].
    + destruct (suffixMatches def filename) eqn:Em.
      * subst d. exists [], def, rest. repeat split; auto. intros ? ? [].
      * destruct (IH H Hne) as (before & defn & after & -> & Hm & Hb).
        exists ((k, def) :: before), defn, after. repeat split; auto.
        intros k' d' [Heq | Hin] Hk; [inversion Heq; subst; exact Em | eauto].
Qed.

(** The generic entry takes no part in the search. *)
Lemma loop_specificEntries (tbl : Registry) (filename : string) :
  getDataTypeForFile_loop (specificEntries tbl) filename =
  getDataTypeForFile_loop tbl filename.
Proof.
  induction tbl as [| [k def] rest IH]; [reflexivity |].
  rewrite loop_cons. unfold specificEntries in *.
  cbn [filter fst]. destruct (strictEq k FILE) eqn:Ek; cbn [negb].
  - exact IH.
  - rewrite loop_cons, Ek, IH. reflexivity.
Qed.

(* ===================================================================== *)
(** ** Classification *)
(* ===================================================================== *)

(** C1 (classification totality).  Whatever the table holds and whatever the
    file name is, [getDataTypeForFile] completes normally with exactly one
    data type and leaves the table as it was; when no entry other than the
    generic one has a suffix ending the lower-cased file name, the answer is
    the fallback [FILE]. *)
Theorem getDataTypeForFile_total :
  forall (tbl : Registry) (filename : string),
    (exists! d : DataTypeEnum,
        getDataTypeForFile filename tbl = (Normal d, tbl)) /\
    ((forall dtype definition,
         In (dtype, definition) tbl -> dtype <> FILE ->
         suffixMatches definition filename = false) ->
     result (getDataTypeForFile filename) tbl = Normal FILE).
Proof.
  intros tbl filename. split.
  - exists (getDataTypeForFile_loop tbl filename). split.
    + apply getDataTypeForFile_run.
    + intros d H. rewrite getDataTypeForFile_run in H. congruence.
  - intro H. unfold result. rewrite getDataTypeForFile_run. simpl.
    f_equal. apply loop_FILE_iff. exact H.
Qed.

(** The fallback at work on the table of the module: [notes] has no known
    suffix. *)
Lemma getDataTypeForFile_total_witness :
  (forall dtype definition,
      In (dtype, definition) DATA_TYPE_DEFINITIONS -> dtype <> FILE ->
      suffixMatches definition "notes" = false) /\
  call (getDataTypeForFile "notes") = Normal FILE.
Proof.
  assert (H : forall dtype definition,
             In (dtype, definition) DATA_TYPE_DEFINITIONS -> dtype <> FILE ->
             suffixMatches definition "notes" = false).
  { intros dtype definition Hin Hne. simpl in Hin.
    repeat (destruct Hin as [Hin | Hin];
            [inversion Hin; subst; try reflexivity; congruence |]).
    destruct Hin. }
  split; [exact H |].
  exact (proj2 (getDataTypeForFile_total DATA_TYPE_DEFINITIONS "notes") H).
Defined.

Lemma In_specificSuffixes (tbl : Registry) (d : DataTypeEnum)
      (definition : DataTypeDefinition) (suffix : string) :
  In (d, definition) tbl -> d <> FILE -> In suffix (fileSuffixes definition) ->
  In suffix (specificSuffixes tbl).
Proof.
  intros Hin Hne Hs. unfold specificSuffixes, specificEntries.
  apply in_flat_map. exists (d, definition). split; [| exact Hs].
  apply filter_In. split; [exact Hin |].
  simpl. apply strictEq_false_iff in Hne. now rewrite Hne.
Qed.

Lemma table_noNestedSuffixes :
  noNestedSuffixes (specificSuffixes DATA_TYPE_DEFINITIONS) = true.
Proof. vm_compute. reflexivity. Qed.

(** Hence two suffixes of the table that end the same name are equally long. *)
Lemma matching_suffixes_same_length (g s s' : string) :
  In s (specificSuffixes DATA_TYPE_DEFINITIONS) ->
  In s' (specificSuffixes DATA_TYPE_DEFINITIONS) ->
  endsWith g s = true -> endsWith g s' = true ->
  String.length s' = String.length s.
Proof.
  intros Hs Hs' Hg Hg'.
  pose proof table_noNestedSuffixes as T. unfold noNestedSuffixes in T.
  rewrite forallb_forall in T.
  destruct (le_lt_dec (String.length s') (String.length s)) as [Hle | Hlt].
  - pose proof (endsWith_nest g s s' Hg Hg' Hle) as Hn.
    specialize (T s Hs). rewrite forallb_forall in T. specialize (T s' Hs').
    rewrite Hn in T. simpl in T. apply Nat.eqb_eq in T. congruence.
  - assert (Hle : String.length s <= String.length s') by lia.
    pose proof (endsWith_nest g s' s Hg' Hg Hle) as Hn.
    specialize (T s' Hs'). rewrite forallb_forall in T. specialize (T s Hs).
    rewrite Hn in T. simpl in T. apply Nat.eqb_eq in T. congruence.
Qed.

(** C2 (suffix resolution tie-break).  For every file name the answer of
    [getDataTypeForFile] on the module's table is such that, whenever some
    suffix of some specific type ends the lower-cased name, the answer is a
    specific type owning a matching suffix at least as long as that one: no
    type with a longer matching suffix is passed over.  The generic entry
    is not part of the search: on any table the answer is the one obtained
    from the table without its [FILE] entries. *)
Theorem getDataTypeForFile_longest_suffix :
  forall filename : string,
  exists d : DataTypeEnum,
    call (getDataTypeForFile filename) = Normal d /\
    (forall d' definition' suffix',
        In (d', definition') DATA_TYPE_DEFINITIONS -> d' <> FILE ->
        In suffix' (fileSuffixes definition') ->
        endsWith (toLowerCase filename) suffix' = true ->
        d <> FILE /\
        exists definition suffix,
          In (d, definition) DATA_TYPE_DEFINITIONS /\
          In suffix (fileSuffixes definition) /\
          endsWith (toLowerCase filename) suffix = true /\
          String.length suffix' <= String.length suffix) /\
    (forall tbl : Registry,
        result (getDataTypeForFile filename) (specificEntries tbl) =
        result (getDataTypeForFile filename) tbl).
Proof.
  intro filename.
  exists (getDataTypeForFile_loop DATA_TYPE_DEFINITIONS filename).
  split; [reflexivity |]. split.
  - intros d' def' s' Hin Hne Hs' Hends.
    assert (Hm' : suffixMatches def' filename = true)
      by (apply suffixMatches_true_iff; eauto).
    assert (Hd : getDataTypeForFile_loop DATA_TYPE_DEFINITIONS filename <> FILE).
    { intro HF. rewrite loop_FILE_iff in HF.
      rewrite (HF d' def' Hin Hne) in Hm'. discriminate. }
    split; [exact Hd |].
    destruct (loop_specific _ _ _ eq_refl Hd) as (before & def & after & Htbl & Hm & _).
    assert (Hind : In (getDataTypeForFile_loop DATA_TYPE_DEFINITIONS filename, def)
                      DATA_TYPE_DEFINITIONS).
    { rewrite Htbl at 2. apply in_or_app. right. left. reflexivity. }
    apply suffixMatches_true_iff in Hm. destruct Hm as (s & Hs & Hends').
    exists def, s. repeat split; auto.
    apply Nat.eq_le_incl.
    apply (matching_suffixes_same_length (toLowerCase filename)); auto.
    + exact (In_specificSuffixes _ _ _ _ Hind Hd Hs).
    + exact (In_specificSuffixes _ _ _ _ Hin Hne Hs').
  - intro tbl. unfold result. rewrite !getDataTypeForFile_run. simpl.
    f_equal. apply loop_specificEntries.
Qed.

(** [capture.webm] ends with a suffix of both the video and the audio type;
    the answer, VIDEO, owns a matching suffix as long as the audio one. *)
Lemma getDataTypeForFile_longest_suffix_witness :
  call (getDataTypeForFile "capture.webm") = Normal VIDEO /\
  exists definition suffix,
    In (VIDEO, definition) DATA_TYPE_DEFINITIONS /\
    In suffix (fileSuffixes definition) /\
    endsWith (toLowerCase "capture.webm") suffix = true /\
    String.length ".webm" <= String.length suffix.
Proof.
  destruct (getDataTypeForFile_longest_suffix "capture.webm") as (d & Hd & Hmax & _).
  assert (E : d = VIDEO) by (vm_compute in Hd; congruence).
  subst d. split; [reflexivity |].
  refine (proj2 (Hmax AUDIO _ ".webm" _ _ _ _)).
  - simpl. do 4 right. left. reflexivity.
  - discriminate.
  - simpl. tauto.
  - reflexivity.
Defined.

(** The functions that dereference an entry, run on any table. *)
Lemma getMimeTypeForFile_run (filename : string) (tbl : Registry) :
  getMimeTypeForFile filename tbl =
  getPrimaryMimeType (getDataTypeForFile_loop tbl filename) tbl.
Proof. reflexivity. Qed.

Lemma getPrimaryMimeType_run (d : DataTypeEnum) (tbl : Registry)
      (definition : DataTypeDefinition) :
  property tbl d = Some definition ->
  getPrimaryMimeType d tbl =
  (Normal (orString (nth_error (mimeTypes definition) 0) "application/octet-stream"), tbl).
Proof.
  intro H. unfold getPrimaryMimeType, bind, definitionOf. now rewrite H.
Qed.

(** C3, as stated, fails: the resolution has no MIME stage.  The file name
    [clip] ends with no suffix of the table and comes with the MIME type
    [video/mp4], a candidate of the video type; the answer is nevertheless
    the generic type, whose candidates do not include [video/mp4]. *)
Lemma mime_stage_absent :
  ~ (forall filename mime : string,
        (forall k defn,
            In (k, defn) DATA_TYPE_DEFINITIONS -> k <> FILE ->
            suffixMatches defn filename = false) ->
        (exists d definition,
            property DATA_TYPE_DEFINITIONS d = Some definition /\
            In mime (mimeTypes definition)) ->
        exists d definition,
          call (getDataTypeForFile filename) = Normal d /\
          property DATA_TYPE_DEFINITIONS d = Some definition /\
          In mime (mimeTypes definition)).
Proof.
  intro claim.
  destruct (claim "clip" "video/mp4") as (d & def & Hd & Hp & Hin).
  - apply loop_FILE_iff. reflexivity.
  - exists VIDEO. eexists. split; [reflexivity |]. simpl. tauto.
  - vm_compute in Hd. injection Hd as <-.
    vm_compute in Hp. injection Hp as <-.
    simpl in Hin. destruct Hin as [H | [H | []]]; discriminate H.
Qed.

(** C3, amended.  The resolution is by suffix alone: on the module's table
    [getDataTypeForFile] answers the generic type exactly when no specific
    type has a suffix ending the lower-cased file name, and the MIME type
    then reported for the file by [getMimeTypeForFile] is
    [application/octet-stream]. *)
Theorem getDataTypeForFile_suffix_only :
  forall filename : string,
    (call (getDataTypeForFile filename) = Normal FILE <->
     forall k defn,
       In (k, defn) DATA_TYPE_DEFINITIONS -> k <> FILE ->
       suffixMatches defn filename = false) /\
    (call (getDataTypeForFile filename) = Normal FILE ->
     call (getMimeTypeForFile filename) = Normal "application/octet-stream").
Proof.
  intro filename. split.
  - unfold call, result. rewrite getDataTypeForFile_run. cbn [fst].
    split; intro H.
    + apply loop_FILE_iff. congruence.
    + f_equal. apply loop_FILE_iff. exact H.
  - unfold call, result. rewrite getDataTypeForFile_run, getMimeTypeForFile_run.
    cbn [fst].
    generalize (getDataTypeForFile_loop DATA_TYPE_DEFINITIONS filename).
    intros d H. assert (E : d = FILE) by congruence. subst d. reflexivity.
Qed.

Lemma getDataTypeForFile_suffix_only_witness :
  call (getDataTypeForFile "clip") = Normal FILE /\
  call (getMimeTypeForFile "clip") = Normal "application/octet-stream".
Proof.
  assert (H : call (getDataTypeForFile "clip") = Normal FILE) by reflexivity.
  split; [exact H |].
  exact (proj2 (getDataTypeForFile_suffix_only "clip") H).
Defined.

(** C9 (case-insensitivity).  On every table, classifying a file name and
    classifying its lower-cased form are the same computation, and so are
    the two suffix tests against any data type. *)
Theorem suffix_classification_ignores_case :
  forall (tbl : Registry) (filename : string),
    getDataTypeForFile filename tbl = getDataTypeForFile (toLowerCase filename) tbl /\
    forall d : DataTypeEnum,
      matchesSuffix filename d tbl = matchesSuffix (toLowerCase filename) d tbl.
Proof.
  intros tbl filename. split.
  - rewrite !getDataTypeForFile_run. do 2 f_equal.
    induction tbl as [| [k def] rest IH]; [reflexivity |].
    rewrite !loop_cons. unfold suffixMatches.
    now rewrite toLowerCase_idempotent, IH.
  - intro d. unfold matchesSuffix. now rewrite toLowerCase_idempotent.
Qed.

(* ===================================================================== *)
(** ** The table *)
(* ===================================================================== *)

(** C6 (well-formedness of the table).  The keys of
    [DATA_TYPE_DEFINITIONS] are the members of [DataTypeEnum], each once;
    for every member the table has exactly one entry under it, that entry is
    what a property read returns, and its [type] field is the member. *)
Theorem registry_well_formed :
  map fst DATA_TYPE_DEFINITIONS = allDataTypes /\
  NoDup allDataTypes /\
  (forall d : DataTypeEnum, In d allDataTypes) /\
  (forall d : DataTypeEnum,
      exists definition : DataTypeDefinition,
        filter (fun entry => strictEq (fst entry) d) DATA_TYPE_DEFINITIONS
        = [(d, definition)] /\
        property DATA_TYPE_DEFINITIONS d = Some definition /\
        type definition = d).
Proof.
  split; [reflexivity |]. split; [| split].
  - unfold allDataTypes.
    repeat (constructor; [simpl; intuition discriminate |]). constructor.
  - intro d. destruct d; simpl; tauto.
  - intro d. destruct d; eexists; (split; [| split]); vm_compute; reflexivity.
Qed.

(** C10 (the default MIME type is never used).  Every definition of the
    table lists at least one MIME type; for every data type
    [getPrimaryMimeType] returns the first one listed, which is a truthy
    string, so the right operand of [||] is not evaluated; the same holds of
    [getMimeTypeForFile] for the type the file name is classified as. *)
Theorem primary_mime_default_unreachable :
  Forall (fun entry => mimeTypes (snd entry) <> []) DATA_TYPE_DEFINITIONS /\
  (forall d : DataTypeEnum,
      exists definition first others,
        property DATA_TYPE_DEFINITIONS d = Some definition /\
        mimeTypes definition = first :: others /\
        truthyString (nth_error (mimeTypes definition) 0) = true /\
        call (getPrimaryMimeType d) = Normal first) /\
  (forall filename : string,
      exists d definition first others,
        call (getDataTypeForFile filename) = Normal d /\
        property DATA_TYPE_DEFINITIONS d = Some definition /\
        mimeTypes definition = first :: others /\
        truthyString (nth_error (mimeTypes definition) 0) = true /\
        call (getMimeTypeForFile filename) = Normal first).
Proof.
  assert (P : forall d : DataTypeEnum,
      exists definition first others,
        property DATA_TYPE_DEFINITIONS d = Some definition /\
        mimeTypes definition = first :: others /\
        truthyString (nth_error (mimeTypes definition) 0) = true /\
        call (getPrimaryMimeType d) = Normal first).
  { intro d. destruct d; do 3 eexists;
      (split; [vm_compute; reflexivity |]);
      (split; [simpl; reflexivity |]); split; reflexivity. }
  split; [| split].
  - unfold DATA_TYPE_DEFINITIONS.
    repeat (constructor; [simpl; discriminate |]). constructor.
  - exact P.
  - intro filename.
    destruct (P (getDataTypeForFile_loop DATA_TYPE_DEFINITIONS filename))
      as (def & first & others & Hp & Hm & Ht & Hc).
    exists (getDataTypeForFile_loop DATA_TYPE_DEFINITIONS filename), def, first, others.
    split; [reflexivity |]. repeat (split; [assumption |]).
    unfold call, result. rewrite getMimeTypeForFile_run. exact Hc.
Qed.

(* ===================================================================== *)
(** ** Size validation *)
(* ===================================================================== *)

(** The comparison of the scaled size is a comparison of byte counts. *)
Lemma sizeMB_le (size limit : Z) :
  Qle_bool (inject_Z size / inject_Z (1024 * 1024)) (inject_Z limit)
  = (size <=? limit * (1024 * 1024))%Z.
Proof.
  unfold Qle_bool, Qdiv, Qmult, Qinv, inject_Z. cbn.
  rewrite !Z.mul_1_r. reflexivity.
Qed.

Lemma validatePayloadSize_run (payload : DataPayload) (tbl : Registry)
      (definition : DataTypeDefinition) :
  property tbl (dataType payload) = Some definition ->
  validatePayloadSize payload tbl =
  (Normal (if truthyNumber (maxSizeMB definition)
           then (orZero (originalSize payload)
                 <=? orZero (maxSizeMB definition) * (1024 * 1024))%Z
           else true),
   tbl).
Proof.
  intro H. unfold validatePayloadSize, bind, definitionOf. rewrite H.
  destruct (truthyNumber (maxSizeMB definition)); cbn [negb].
  - unfold ret. now rewrite sizeMB_le.
  - reflexivity.
Qed.

(** Every entry of the module's table declares a positive ceiling. *)
Lemma table_ceilings (d : DataTypeEnum) :
  exists definition mb,
    property DATA_TYPE_DEFINITIONS d = Some definition /\
    maxSizeMB definition = Some mb /\ (0 < mb)%Z.
Proof.
  destruct d; do 2 eexists; (split; [vm_compute; reflexivity |]);
    (split; [reflexivity |]); reflexivity.
Qed.

(** C4 (size validation).  On the module's table [validatePayloadSize]
    always completes with a boolean; it is [false] exactly when the payload
    has an [originalSize] greater than the ceiling of its data type, so a
    size equal to the ceiling is valid.  On any table, a definition without
    [maxSizeMB] makes every payload of that type valid. *)
Theorem validatePayloadSize_spec :
  (forall payload : DataPayload,
      exists definition : DataTypeDefinition,
        property DATA_TYPE_DEFINITIONS (dataType payload) = Some definition /\
        (exists b : bool, call (validatePayloadSize payload) = Normal b) /\
        (call (validatePayloadSize payload) = Normal false <->
         exists size ceiling : Z,
           originalSize payload = Some size /\
           maxSizeBytes definition = Some ceiling /\
           (ceiling < size)%Z) /\
        (forall ceiling : Z,
            maxSizeBytes definition = Some ceiling ->
            originalSize payload = Some ceiling ->
            call (validatePayloadSize payload) = Normal true)) /\
  (forall (tbl : Registry) (payload : DataPayload) (definition : DataTypeDefinition),
      property tbl (dataType payload) = Some definition ->
      maxSizeMB definition = None ->
      result (validatePayloadSize payload) tbl = Normal true).
Proof.
  split.
  - intro payload.
    destruct (table_ceilings (dataType payload)) as (def & mb & Hp & Hmb & Hpos).
    exists def. split; [exact Hp |].
    assert (Hrun : call (validatePayloadSize payload) =
                   Normal (orZero (originalSize payload) <=? mb * (1024 * 1024))%Z).
    { unfold call, result. rewrite (validatePayloadSize_run _ _ _ Hp), Hmb.
      cbn [fst truthyNumber orZero].
      destruct (Z.eqb_spec mb 0) as [E | _]; [lia | reflexivity]. }
    assert (Hceil : maxSizeBytes def = Some (mb * (1024 * 1024))%Z)
      by (unfold maxSizeBytes; now rewrite Hmb).
    rewrite Hrun, Hceil. split; [eauto | split].
    + split.
      * intro H. injection H as H. apply Z.leb_gt in H.
        destruct (originalSize payload) as [size |]; cbn [orZero] in H.
        -- exists size, (mb * (1024 * 1024))%Z. auto.
        -- lia.
      * intros (size & ceiling & Hs & Hc & Hlt).
        injection Hc as <-. rewrite Hs. cbn [orZero].
        f_equal. apply Z.leb_gt. exact Hlt.
    + intros ceiling Hc Hs. injection Hc as <-. rewrite Hs. cbn [orZero].
      f_equal. apply Z.leb_refl.
  - intros tbl payload def Hp Hnone. unfold result.
    rewrite (validatePayloadSize_run _ _ _ Hp), Hnone. reflexivity.
Qed.

(** A parameters payload of exactly 10 MiB is valid, one byte more is not,
    and without a ceiling the larger one is valid too. *)
Lemma validatePayloadSize_spec_witness :
  call (validatePayloadSize (samplePayload PARAMETERS (Some 10485760%Z))) = Normal true /\
  call (validatePayloadSize (samplePayload PARAMETERS (Some 10485761%Z))) = Normal false /\
  result (validatePayloadSize (samplePayload PARAMETERS (Some 10485761%Z)))
         unlimitedParameters = Normal true.
Proof.
  destruct validatePayloadSize_spec as [Htable Hnone].
  split; [| split].
  - destruct (Htable (samplePayload PARAMETERS (Some 10485760%Z)))
      as (def & Hp & _ & _ & Heq).
    vm_compute in Hp. injection Hp as <-.
    apply (Heq 10485760%Z); reflexivity.
  - destruct (Htable (samplePayload PARAMETERS (Some 10485761%Z)))
      as (def & Hp & _ & Hiff & _).
    vm_compute in Hp. injection Hp as <-.
    apply Hiff. exists 10485761%Z, 10485760%Z.
    repeat split; reflexivity.
  - eapply Hnone; reflexivity.
Defined.

(** C8 (missing size).  On the module's table a payload without
    [originalSize] is valid whatever its data type, although every type
    declares a ceiling: the missing size counts as 0 bytes. *)
Theorem validatePayloadSize_missing_size :
  forall payload : DataPayload,
    originalSize payload = None ->
    call (validatePayloadSize payload) = Normal true /\
    exists definition ceiling,
      property DATA_TYPE_DEFINITIONS (dataType payload) = Some definition /\
      maxSizeBytes definition = Some ceiling /\
      orZero (originalSize payload) = 0%Z.
Proof.
  intros payload Hnone.
  destruct (table_ceilings (dataType payload)) as (def & mb & Hp & Hmb & Hpos).
  split.
  - unfold call, result. rewrite (validatePayloadSize_run _ _ _ Hp), Hmb, Hnone.
    cbn [fst truthyNumber orZero].
    destruct (Z.eqb_spec mb 0) as [E | _]; [lia |]. cbn [negb].
    f_equal. apply Z.leb_le. lia.
  - exists def, (mb * (1024 * 1024))%Z. split; [exact Hp |]. split.
    + unfold maxSizeBytes. now rewrite Hmb.
    + now rewrite Hnone.
Qed.

Lemma validatePayloadSize_missing_size_witness :
  originalSize (samplePayload VIDEO None) = None /\
  call (validatePayloadSize (samplePayload VIDEO None)) = Normal true.
Proof.
  split; [reflexivity |].
  exact (proj1 (validatePayloadSize_missing_size (samplePayload VIDEO None) eq_refl)).
Defined.

(* ===================================================================== *)
(** ** The operations only read the table *)
(* ===================================================================== *)

Lemma readOnly_ret {A : Type} (a : A) : readOnly (ret a).
Proof. intro tbl. reflexivity. Qed.

Lemma readOnly_throw {A : Type} : readOnly (@throwTypeError A).
Proof. intro tbl. reflexivity. Qed.

Lemma readOnly_entries : readOnly Object_entries.
Proof. intro tbl. reflexivity. Qed.

Lemma readOnly_definitionOf (key : DataTypeEnum) : readOnly (definitionOf key).
Proof.
  intro tbl. unfold tableAfter, definitionOf.
  destruct (property tbl key); reflexivity.
Qed.

Lemma readOnly_bind {A B : Type} (m : M A) (k : A -> M B) :
  readOnly m -> (forall a, readOnly (k a)) -> readOnly (bind m k).
Proof.
  intros Hm Hk tbl. unfold tableAfter, bind.
  specialize (Hm tbl). unfold tableAfter in Hm.
  destruct (m tbl) as [[a |] tbl']; simpl in Hm; subst tbl'.
  - apply Hk.
  - reflexivity.
Qed.

Ltac read_only :=
  repeat first
    [ apply readOnly_ret
    | apply readOnly_throw
    | apply readOnly_entries
    | apply readOnly_definitionOf
    | apply readOnly_bind; [| intro]
    | match goal with
      | |- readOnly (if ?c then _ else _) => destruct c
      end ].

Lemma readOnly_getDataTypeForFile (filename : string) :
  readOnly (getDataTypeForFile filename).
Proof. unfold getDataTypeForFile. read_only. Qed.

Lemma readOnly_getMimeTypeForFile (filename : string) :
  readOnly (getMimeTypeForFile filename).
Proof. unfold getMimeTypeForFile, getDataTypeForFile. read_only. Qed.

Lemma readOnly_getPrimaryMimeType (d : DataTypeEnum) :
  readOnly (getPrimaryMimeType d).
Proof. unfold getPrimaryMimeType. read_only. Qed.

Lemma readOnly_validatePayloadSize (payload : DataPayload) :
  readOnly (validatePayloadSize payload).
Proof. unfold validatePayloadSize. read_only. Qed.

Lemma readOnly_matchesSuffix (filename : string) (d : DataTypeEnum) :
  readOnly (matchesSuffix filename d).
Proof. unfold matchesSuffix. read_only. Qed.

Lemma readOnly_perform (i : Invocation) : readOnly (perform i).
Proof.
  destruct i; unfold perform; apply readOnly_bind;
    auto using readOnly_ret, readOnly_getDataTypeForFile,
               readOnly_getMimeTypeForFile, readOnly_getPrimaryMimeType,
               readOnly_validatePayloadSize, readOnly_matchesSuffix.
Qed.

Lemma performAll_spec (invocations : list Invocation) (tbl : Registry) :
  performAll invocations tbl = (map (fun i => result (perform i) tbl) invocations, tbl).
Proof.
  induction invocations as [| i rest IH]; [reflexivity |].
  cbn [performAll map]. pose proof (readOnly_perform i tbl) as Hi.
  unfold tableAfter, result in *.
  destruct (perform i tbl) as [c tbl']. simpl in Hi. subst tbl'.
  rewrite IH. reflexivity.
Qed.

(** C7 (purity and determinism).  Each of the five operations hands back
    the table it was run on, whatever the table and the arguments, and in
    particular leaves [DATA_TYPE_DEFINITIONS] as initialised; in any
    sequence of invocations every invocation completes as it would on the
    initial table, so an invocation repeated after any others with equal
    arguments completes in the same way. *)
Theorem registry_operations_pure :
  (forall (tbl : Registry) (filename : string) (d : DataTypeEnum)
          (payload : DataPayload),
      tableAfter (getDataTypeForFile filename) tbl = tbl /\
      tableAfter (getMimeTypeForFile filename) tbl = tbl /\
      tableAfter (getPrimaryMimeType d) tbl = tbl /\
      tableAfter (validatePayloadSize payload) tbl = tbl /\
      tableAfter (matchesSuffix filename d) tbl = tbl) /\
  (forall i : Invocation,
      tableAfter (perform i) DATA_TYPE_DEFINITIONS = DATA_TYPE_DEFINITIONS) /\
  (forall (tbl : Registry) (invocations : list Invocation),
      performAll invocations tbl = (map (fun i => result (perform i) tbl) invocations, tbl)) /\
  (forall (tbl : Registry) (between : list Invocation) (i : Invocation),
      result (perform i) (snd (performAll between tbl)) = result (perform i) tbl).
Proof.
  split; [| split; [| split]].
  - intros tbl filename d payload.
    split; [apply readOnly_getDataTypeForFile |].
    split; [apply readOnly_getMimeTypeForFile |].
    split; [apply readOnly_getPrimaryMimeType |].
    split; [apply readOnly_validatePayloadSize | apply readOnly_matchesSuffix].
  - intro i. apply readOnly_perform.
  - intros tbl invocations. apply performAll_spec.
  - intros tbl between i. rewrite performAll_spec. reflexivity.
Qed.

(* ===================================================================== *)
(** ** Further facts about suffixes *)
(* ===================================================================== *)

Lemma toLowerCase_append (p s : string) :
  toLowerCase (p ++ s)%string = (toLowerCase p ++ toLowerCase s)%string.
Proof.
  induction p as [| c p IH]; simpl; congruence.
Qed.

Lemma endsWith_refl (s : string) : endsWith s s = true.
Proof. apply endsWith_iff. exists EmptyString. reflexivity. Qed.

Lemma append_assoc (a b c : string) :
  ((a ++ b) ++ c)%string = (a ++ (b ++ c))%string.
Proof. induction a as [| x a IH]; simpl; congruence. Qed.

Lemma endsWith_trans (g s s' : string) :
  endsWith g s = true -> endsWith s s' = true -> endsWith g s' = true.
Proof.
  intros H H'. apply endsWith_iff in H. apply endsWith_iff in H'.
  destruct H as [p ->]. destruct H' as [q ->].
  apply endsWith_iff. exists (p ++ q)%string. now rewrite append_assoc.
Qed.

Lemma endsWith_append (p g s : string) :
  endsWith g s = true -> endsWith (p ++ g) s = true.
Proof.
  intro H. apply endsWith_iff in H. destruct H as [q ->].
  apply endsWith_iff. exists (p ++ q)%string. now rewrite append_assoc.
Qed.

Lemma endsWith_same_length (s s' : string) :
  endsWith s s' = true -> String.length s' = String.length s -> s = s'.
Proof.
  intros H Hlen. apply endsWith_iff in H. destruct H as [p ->].
  rewrite length_append in Hlen.
  destruct p as [| c p]; [reflexivity | simpl in Hlen; lia].
Qed.

Lemma occursIn_append (c : ascii) (p s : string) :
  occursIn c (p ++ s) = occursIn c p || occursIn c s.
Proof.
  induction p as [| x p IH]; simpl; [reflexivity |].
  now rewrite IH, orb_assoc.
Qed.

(** Lower-casing neither makes nor removes a dot. *)
Lemma lowerCodeUnit_dot (c : ascii) :
  Ascii.eqb (lowerCodeUnit c) "." = Ascii.eqb c ".".
Proof.
  destruct c as [[] [] [] [] [] [] [] []]; vm_compute; reflexivity.
Qed.

Lemma occursIn_dot_toLowerCase (s : string) :
  occursIn "." (toLowerCase s) = occursIn "." s.
Proof.
  induction s as [| c s IH]; simpl; [reflexivity |].
  now rewrite lowerCodeUnit_dot, IH.
Qed.

(** Two suffixes of the module's table ending the same name are the same. *)
Lemma matching_suffix_unique (g s s' : string) :
  In s (specificSuffixes DATA_TYPE_DEFINITIONS) ->
  In s' (specificSuffixes DATA_TYPE_DEFINITIONS) ->
  endsWith g s = true -> endsWith g s' = true ->
  s = s'.
Proof.
  intros Hs Hs' Hg Hg'.
  pose proof (matching_suffixes_same_length g s s' Hs Hs' Hg Hg') as Hlen.
  apply endsWith_same_length; [| exact Hlen].
  apply (endsWith_nest g); auto. lia.
Qed.

Lemma table_allLowerCase :
  allLowerCase (specificSuffixes DATA_TYPE_DEFINITIONS) = true.
Proof. vm_compute. reflexivity. Qed.

Lemma table_suffix_lower (s : string) :
  In s (specificSuffixes DATA_TYPE_DEFINITIONS) -> toLowerCase s = s.
Proof.
  intro Hs. pose proof table_allLowerCase as T. unfold allLowerCase in T.
  rewrite forallb_forall in T. apply String.eqb_eq. exact (T s Hs).
Qed.

Lemma table_allStartWith_dot :
  allStartWith "." (specificSuffixes DATA_TYPE_DEFINITIONS) = true.
Proof. vm_compute. reflexivity. Qed.

(** The loop sees a file name only through the tests of the entries. *)
Lemma loop_ext (tbl : Registry) (f g : string) :
  (forall d definition,
      In (d, definition) tbl -> d <> FILE ->
      suffixMatches definition f = suffixMatches definition g) ->
  getDataTypeForFile_loop tbl f = getDataTypeForFile_loop tbl g.
Proof.
  induction tbl as [| [k def] rest IH]; intro H; [reflexivity |].
  rewrite !loop_cons. destruct (strictEq k FILE) eqn:Ek.
  - apply IH. intros d defn Hin. apply H. right. exact Hin.
  - apply strictEq_false_iff in Ek.
    rewrite (H k def (or_introl eq_refl) Ek).
    rewrite IH; [reflexivity |].
    intros d defn Hin. apply H. right. exact Hin.
Qed.

(** On the module's table, a name ending with a suffix of the table is
    tested by every entry as the suffix itself is. *)
Lemma suffixMatches_by_suffix (f s : string) (d : DataTypeEnum)
      (definition : DataTypeDefinition) :
  In s (specificSuffixes DATA_TYPE_DEFINITIONS) ->
  endsWith (toLowerCase f) s = true ->
  In (d, definition) DATA_TYPE_DEFINITIONS -> d <> FILE ->
  suffixMatches definition f = suffixMatches definition s.
Proof.
  intros Hs Hends Hin Hne.
  pose proof (table_suffix_lower s Hs) as Hlow.
  destruct (suffixMatches definition s) eqn:E.
  - apply suffixMatches_true_iff in E. destruct E as (s' & Hs' & He).
    rewrite Hlow in He.
    apply suffixMatches_true_iff. exists s'. split; [exact Hs' |].
    eapply endsWith_trans; eauto.
  - destruct (suffixMatches definition f) eqn:E'; [| reflexivity].
    apply suffixMatches_true_iff in E'. destruct E' as (s' & Hs' & He).
    assert (Hin' : In s' (specificSuffixes DATA_TYPE_DEFINITIONS))
      by exact (In_specificSuffixes _ _ _ _ Hin Hne Hs').
    assert (s = s') by (eapply matching_suffix_unique; eauto). subst s'.
    assert (T : suffixMatches definition s = true).
    { apply suffixMatches_true_iff. exists s. split; [exact Hs' |].
      rewrite Hlow. apply endsWith_refl. }
    congruence.
Qed.

Lemma loop_by_suffix (f s : string) :
  In s (specificSuffixes DATA_TYPE_DEFINITIONS) ->
  endsWith (toLowerCase f) s = true ->
  getDataTypeForFile_loop DATA_TYPE_DEFINITIONS f =
  getDataTypeForFile_loop DATA_TYPE_DEFINITIONS s.
Proof.
  intros Hs Hends. apply loop_ext. intros d def Hin Hne.
  eapply suffixMatches_by_suffix; eauto.
Qed.

Lemma Normal_inj {A : Type} (a b : A) : Normal a = Normal b -> a = b.
Proof. intro H. injection H as H. exact H. Qed.

(** In the module's table an entry is the property under its key. *)
Lemma table_property (d : DataTypeEnum) (definition : DataTypeDefinition) :
  In (d, definition) DATA_TYPE_DEFINITIONS ->
  property DATA_TYPE_DEFINITIONS d = Some definition.
Proof.
  intro Hin. simpl in Hin.
  repeat (destruct Hin as [Hin | Hin]; [inversion Hin; subst; reflexivity |]).
  destruct Hin.
Qed.

Lemma matchesSuffix_run (filename : string) (d : DataTypeEnum) (tbl : Registry)
      (definition : DataTypeDefinition) :
  property tbl d = Some definition ->
  matchesSuffix filename d tbl =
  (Normal (if includes (fileSuffixes definition) "*" then true
           else suffixMatches definition filename), tbl).
Proof.
  intro H. unfold matchesSuffix, bind, definitionOf. rewrite H.
  destruct (includes (fileSuffixes definition) "*"); reflexivity.
Qed.

(* ===================================================================== *)
(** ** More on classification *)
(* ===================================================================== *)

(** The search is a first match in table order: on any table, a specific
    type is the answer exactly when one of its entries matches the name and
    no specific entry before that one does. *)
Theorem getDataTypeForFile_first_match :
  forall (tbl : Registry) (filename : string) (d : DataTypeEnum),
    d <> FILE ->
    (result (getDataTypeForFile filename) tbl = Normal d <->
     exists before definition after,
       tbl = before ++ (d, definition) :: after /\
       suffixMatches definition filename = true /\
       forall k defn, In (k, defn) before -> k <> FILE ->
                      suffixMatches defn filename = false).
Proof.
  intros tbl filename d Hne. unfold result.
  rewrite getDataTypeForFile_run. cbn [fst]. split.
  - intro H. apply loop_specific; congruence.
  - intros (before & def & after & -> & Hm & Hb). f_equal.
    induction before as [| [k defn] before IH].
    + simpl app. rewrite loop_cons.
      apply strictEq_false_iff in Hne. now rewrite Hne, Hm.
    + simpl app. rewrite loop_cons.
      destruct (strictEq k FILE) eqn:Ek.
      * apply IH. intros k' d' Hin. apply Hb. right. exact Hin.
      * apply strictEq_false_iff in Ek.
        rewrite (Hb k defn (or_introl eq_refl) Ek).
        apply IH. intros k' d' Hin. apply Hb. right. exact Hin.
Qed.

Lemma getDataTypeForFile_first_match_witness :
  VIDEO <> FILE /\
  exists before definition after,
    DATA_TYPE_DEFINITIONS = before ++ (VIDEO, definition) :: after /\
    suffixMatches definition "capture.webm" = true /\
    forall k defn, In (k, defn) before -> k <> FILE ->
                   suffixMatches defn "capture.webm" = false.
Proof.
  assert (Hne : VIDEO <> FILE) by discriminate.
  split; [exact Hne |].
  apply (proj1 (getDataTypeForFile_first_match
                  DATA_TYPE_DEFINITIONS "capture.webm" VIDEO Hne)).
  reflexivity.
Defined.

(** On the module's table the suffix alone decides: a name whose
    lower-cased form ends with a suffix listed by some specific type is
    classified as a file named by that suffix alone is. *)
Theorem getDataTypeForFile_by_suffix :
  forall (filename suffix : string) (d : DataTypeEnum)
         (definition : DataTypeDefinition),
    In (d, definition) DATA_TYPE_DEFINITIONS -> d <> FILE ->
    In suffix (fileSuffixes definition) ->
    endsWith (toLowerCase filename) suffix = true ->
    call (getDataTypeForFile filename) = call (getDataTypeForFile suffix).
Proof.
  intros filename suffix d def Hin Hne Hs Hends.
  unfold call, result. rewrite !getDataTypeForFile_run. cbn [fst]. f_equal.
  apply loop_by_suffix; [| exact Hends].
  exact (In_specificSuffixes _ _ _ _ Hin Hne Hs).
Qed.

Lemma getDataTypeForFile_by_suffix_witness :
  endsWith (toLowerCase "Report.Final.CSV") ".csv" = true /\
  call (getDataTypeForFile "Report.Final.CSV") = call (getDataTypeForFile ".csv").
Proof.
  split; [reflexivity |].
  eapply (getDataTypeForFile_by_suffix "Report.Final.CSV" ".csv" CSV).
  - simpl. do 8 right. left. reflexivity.
  - discriminate.
  - simpl. left. reflexivity.
  - reflexivity.
Defined.

(** Two suffixes are listed twice and the earlier type wins: a [.json]
    name is a time series, never parameters, and a [.webm] name is video,
    never audio, although [matchesSuffix] accepts the name for the later
    type as well. *)
Theorem getDataTypeForFile_shadowed_suffixes :
  forall filename : string,
    (endsWith (toLowerCase filename) ".json" = true ->
     call (getDataTypeForFile filename) = Normal TIME_SERIES /\
     call (matchesSuffix filename PARAMETERS) = Normal true) /\
    (endsWith (toLowerCase filename) ".webm" = true ->
     call (getDataTypeForFile filename) = Normal VIDEO /\
     call (matchesSuffix filename AUDIO) = Normal true).
Proof.
  intro filename. split; intro Hends.
  - split.
    + unfold call, result. rewrite getDataTypeForFile_run. cbn [fst]. f_equal.
      rewrite (loop_by_suffix filename ".json"); [reflexivity | | exact Hends].
      vm_compute. tauto.
    + unfold call, result.
      erewrite matchesSuffix_run by (vm_compute; reflexivity).
      cbn [fst]. f_equal.
      replace (includes _ "*") with false by reflexivity.
      apply suffixMatches_true_iff. exists ".json". split; [simpl; tauto | exact Hends].
  - split.
    + unfold call, result. rewrite getDataTypeForFile_run. cbn [fst]. f_equal.
      rewrite (loop_by_suffix filename ".webm"); [reflexivity | | exact Hends].
      vm_compute. tauto.
    + unfold call, result.
      erewrite matchesSuffix_run by (vm_compute; reflexivity).
      cbn [fst]. f_equal.
      replace (includes _ "*") with false by reflexivity.
      apply suffixMatches_true_iff. exists ".webm". split; [simpl; tauto | exact Hends].
Qed.

Lemma getDataTypeForFile_shadowed_suffixes_witness :
  (call (getDataTypeForFile "hyperparams.json") = Normal TIME_SERIES /\
   call (matchesSuffix "hyperparams.json" PARAMETERS) = Normal true) /\
  (call (getDataTypeForFile "voice.webm") = Normal VIDEO /\
   call (matchesSuffix "voice.webm" AUDIO) = Normal true).
Proof.
  split.
  - exact (proj1 (getDataTypeForFile_shadowed_suffixes "hyperparams.json") eq_refl).
  - exact (proj2 (getDataTypeForFile_shadowed_suffixes "voice.webm") eq_refl).
Defined.

(** The two functions agree in one direction: whatever type
    [getDataTypeForFile] gives a name, [matchesSuffix] accepts the name for
    that type. *)
Theorem getDataTypeForFile_matchesSuffix :
  forall filename : string,
  exists d : DataTypeEnum,
    call (getDataTypeForFile filename) = Normal d /\
    call (matchesSuffix filename d) = Normal true.
Proof.
  intro filename.
  exists (getDataTypeForFile_loop DATA_TYPE_DEFINITIONS filename).
  split; [reflexivity |].
  destruct (strictEq (getDataTypeForFile_loop DATA_TYPE_DEFINITIONS filename) FILE)
    eqn:E.
  - apply strictEq_true_iff in E. rewrite E. reflexivity.
  - apply strictEq_false_iff in E.
    destruct (loop_specific _ _ _ eq_refl E) as (before & def & after & Htbl & Hm & _).
    assert (Hin : In (getDataTypeForFile_loop DATA_TYPE_DEFINITIONS filename, def)
                     DATA_TYPE_DEFINITIONS).
    { rewrite Htbl at 2. apply in_or_app. right. left. reflexivity. }
    unfold call, result. rewrite (matchesSuffix_run _ _ _ _ (table_property _ _ Hin)).
    cbn [fst]. rewrite Hm. now destruct (includes (fileSuffixes def) "*").
Qed.

(** A definition listing the wildcard accepts every name, on any table. *)
Theorem matchesSuffix_wildcard :
  forall (tbl : Registry) (d : DataTypeEnum) (definition : DataTypeDefinition)
         (filename : string),
    property tbl d = Some definition ->
    In "*" (fileSuffixes definition) ->
    result (matchesSuffix filename d) tbl = Normal true.
Proof.
  intros tbl d def filename Hp Hin. unfold result.
  rewrite (matchesSuffix_run _ _ _ _ Hp). cbn [fst].
  replace (includes (fileSuffixes def) "*") with true; [reflexivity |].
  symmetry. unfold includes. apply existsb_exists.
  exists "*". split; [exact Hin | reflexivity].
Qed.

Lemma matchesSuffix_wildcard_witness :
  call (matchesSuffix "" FILE) = Normal true.
Proof.
  eapply (matchesSuffix_wildcard DATA_TYPE_DEFINITIONS FILE _ "").
  - reflexivity.
  - simpl. left. reflexivity.
Defined.

(** A name without a dot, the empty name included, has no known suffix: it
    is a generic file and its MIME type is [application/octet-stream]. *)
Theorem getDataTypeForFile_no_dot :
  forall filename : string,
    occursIn "." filename = false ->
    call (getDataTypeForFile filename) = Normal FILE /\
    call (getMimeTypeForFile filename) = Normal "application/octet-stream".
Proof.
  intros filename Hdot.
  assert (HF : getDataTypeForFile_loop DATA_TYPE_DEFINITIONS filename = FILE).
  { apply loop_FILE_iff. intros d def Hin Hne.
    destruct (suffixMatches def filename) eqn:E; [| reflexivity].
    apply suffixMatches_true_iff in E. destruct E as (s & Hs & Hends).
    pose proof (In_specificSuffixes _ _ _ _ Hin Hne Hs) as HL.
    pose proof table_allStartWith_dot as T. unfold allStartWith in T.
    rewrite forallb_forall in T. specialize (T s HL).
    destruct s as [| c s]; [discriminate |].
    apply Ascii.eqb_eq in T. subst c.
    apply endsWith_iff in Hends. destruct Hends as [p Hp].
    rewrite <- occursIn_dot_toLowerCase, Hp, occursIn_append in Hdot.
    simpl in Hdot. rewrite orb_true_r in Hdot. discriminate. }
  unfold call, result.
  rewrite getMimeTypeForFile_run, getDataTypeForFile_run, HF. split; reflexivity.
Qed.

Lemma getDataTypeForFile_no_dot_witness :
  occursIn "." "" = false /\
  call (getDataTypeForFile "") = Normal FILE /\
  call (getMimeTypeForFile "") = Normal "application/octet-stream".
Proof.
  split; [reflexivity |].
  exact (getDataTypeForFile_no_dot "" eq_refl).
Defined.

(** A specific classification survives any prefix: putting a directory
    path in front of a recognised name does not change its type. *)
Theorem getDataTypeForFile_prefix :
  forall (prefix filename : string) (d : DataTypeEnum),
    call (getDataTypeForFile filename) = Normal d ->
    d <> FILE ->
    call (getDataTypeForFile (prefix ++ filename)) = Normal d.
Proof.
  intros prefix filename d H Hne. unfold call, result in *.
  rewrite getDataTypeForFile_run in *. cbn [fst] in *.
  apply Normal_inj in H.
  destruct (loop_specific _ _ _ H Hne) as (before & def & after & Htbl & Hm & _).
  assert (Hin : In (d, def) DATA_TYPE_DEFINITIONS).
  { rewrite Htbl. apply in_or_app. right. left. reflexivity. }
  apply suffixMatches_true_iff in Hm. destruct Hm as (s & Hs & Hends).
  pose proof (In_specificSuffixes _ _ _ _ Hin Hne Hs) as HL.
  f_equal. rewrite <- H.
  rewrite (loop_by_suffix filename s HL Hends).
  apply loop_by_suffix; [exact HL |].
  rewrite toLowerCase_append. apply endsWith_append. exact Hends.
Qed.

Lemma getDataTypeForFile_prefix_witness :
  call (getDataTypeForFile "run.log") = Normal LOG /\
  call (getDataTypeForFile ("robots/r2/2024-05-01/" ++ "run.log")) = Normal LOG.
Proof.
  assert (H : call (getDataTypeForFile "run.log") = Normal LOG) by reflexivity.
  split; [exact H |].
  apply (getDataTypeForFile_prefix "robots/r2/2024-05-01/" "run.log" LOG H).
  discriminate.
Defined.

(** Every data type, the generic one included, is the classification of
    some file name. *)
Theorem getDataTypeForFile_onto :
  forall d : DataTypeEnum,
  exists filename : string, call (getDataTypeForFile filename) = Normal d.
Proof.
  intro d. destruct d.
  - exists "pose.json". reflexivity.
  - exists "train.yaml". reflexivity.
  - exists "frame.png". reflexivity.
  - exists "ego.mp4". reflexivity.
  - exists "mic.mp3". reflexivity.
  - exists "system.log". reflexivity.
  - exists "README.md". reflexivity.
  - exists "blob". reflexivity.
  - exists "table.csv". reflexivity.
  - exists "model.safetensors". reflexivity.
Qed.

(** Every suffix written in the module's table is usable: it is in lower
    case, so it can match a lower-cased name, [matchesSuffix] accepts the
    suffix itself for its type, and it selects its own type in
    [getDataTypeForFile], save the two suffixes an earlier type also lists. *)
Theorem table_suffixes_usable :
  forall (d : DataTypeEnum) (definition : DataTypeDefinition) (suffix : string),
    In (d, definition) DATA_TYPE_DEFINITIONS ->
    In suffix (fileSuffixes definition) ->
    toLowerCase suffix = suffix /\
    call (matchesSuffix suffix d) = Normal true /\
    (call (getDataTypeForFile suffix) = Normal d \/
     (d = PARAMETERS /\ suffix = ".json") \/
     (d = AUDIO /\ suffix = ".webm")).
Proof.
  intros d def s Hin Hs. simpl in Hin.
  repeat (destruct Hin as [Hin | Hin];
    [ inversion Hin; subst; clear Hin; simpl in Hs;
      repeat (destruct Hs as [Hs | Hs];
        [ subst s; split; [reflexivity |]; split; [reflexivity |];
          first [ left; reflexivity
                | right; left; split; reflexivity
                | right; right; split; reflexivity ] |]);
      destruct Hs |]).
  destruct Hin.
Qed.

Lemma table_suffixes_usable_witness :
  toLowerCase ".webm" = ".webm" /\
  call (matchesSuffix ".webm" AUDIO) = Normal true /\
  (call (getDataTypeForFile ".webm") = Normal AUDIO \/
   (AUDIO = PARAMETERS /\ ".webm" = ".json") \/
   (AUDIO = AUDIO /\ ".webm" = ".webm")).
Proof.
  eapply (table_suffixes_usable AUDIO _ ".webm").
  - simpl. do 4 right. left. reflexivity.
  - simpl. tauto.
Defined.

(** The MIME type reported for a file is the first candidate of its type,
    not the one of its format: every name with an image suffix, whichever
    it is, is reported as [image/jpeg]. *)
Theorem getMimeTypeForFile_images :
  forall (filename suffix : string) (definition : DataTypeDefinition),
    property DATA_TYPE_DEFINITIONS IMAGES = Some definition ->
    In suffix (fileSuffixes definition) ->
    endsWith (toLowerCase filename) suffix = true ->
    call (getMimeTypeForFile filename) = Normal "image/jpeg".
Proof.
  intros filename s def Hp Hs Hends.
  assert (Hin : In (IMAGES, def) DATA_TYPE_DEFINITIONS).
  { vm_compute in Hp. injection Hp as <-. simpl. tauto. }
  assert (HL : In s (specificSuffixes DATA_TYPE_DEFINITIONS)).
  { apply (In_specificSuffixes _ IMAGES def); auto. discriminate. }
  unfold call, result.
  rewrite getMimeTypeForFile_run, (loop_by_suffix filename s HL Hends).
  clear Hin HL Hends. vm_compute in Hp. injection Hp as <-. simpl in Hs.
  repeat (destruct Hs as [Hs | Hs]; [subst s; reflexivity |]).
  destruct Hs.
Qed.

Lemma getMimeTypeForFile_images_witness :
  call (getMimeTypeForFile "depth_000123.PNG") = Normal "image/jpeg".
Proof.
  eapply (getMimeTypeForFile_images "depth_000123.PNG" ".png").
  - reflexivity.
  - simpl. tauto.
  - reflexivity.
Defined.

(* ===================================================================== *)
(** ** Exceptions *)
(* ===================================================================== *)

(** On the table of the module no exported function throws, whatever its
    arguments: every invocation completes normally with a value. *)
Theorem no_TypeError_on_module_table :
  forall i : Invocation,
  exists v : Value, call (perform i) = Normal v.
Proof.
  intro i. unfold call, result. destruct i; unfold perform, bind.
  - rewrite getDataTypeForFile_run. eexists. reflexivity.
  - rewrite getMimeTypeForFile_run.
    destruct (table_ceilings (getDataTypeForFile_loop DATA_TYPE_DEFINITIONS filename))
      as (def & mb & Hp & _).
    rewrite (getPrimaryMimeType_run _ _ _ Hp). eexists. reflexivity.
  - destruct (table_ceilings dataType0) as (def & mb & Hp & _).
    rewrite (getPrimaryMimeType_run _ _ _ Hp). eexists. reflexivity.
  - destruct (table_ceilings (dataType payload)) as (def & mb & Hp & _).
    rewrite (validatePayloadSize_run _ _ _ Hp). eexists. reflexivity.
  - destruct (table_ceilings dataType0) as (def & mb & Hp & _).
    rewrite (matchesSuffix_run _ _ _ _ Hp). eexists. reflexivity.
Qed.

(** On a table that lacks the entry of a data type, the three functions
    that read the entry throw a [TypeError]; [getDataTypeForFile] does not
    read entries by key and still answers, and [getMimeTypeForFile] throws
    when the type it is given back has no entry. *)
Theorem missing_entry_throws :
  forall (tbl : Registry) (d : DataTypeEnum),
    property tbl d = None ->
    result (getPrimaryMimeType d) tbl = TypeError /\
    (forall filename, result (matchesSuffix filename d) tbl = TypeError) /\
    (forall payload, dataType payload = d ->
                     result (validatePayloadSize payload) tbl = TypeError) /\
    (forall filename,
        result (getDataTypeForFile filename) tbl = Normal d ->
        result (getMimeTypeForFile filename) tbl = TypeError).
Proof.
  intros tbl d Hnone. repeat split.
  - unfold result, getPrimaryMimeType, bind, definitionOf. now rewrite Hnone.
  - intro filename. unfold result, matchesSuffix, bind, definitionOf.
    now rewrite Hnone.
  - intros payload <-. unfold result, validatePayloadSize, bind, definitionOf.
    now rewrite Hnone.
  - intros filename H. unfold result in *.
    rewrite getDataTypeForFile_run in H. cbn [fst] in H. apply Normal_inj in H.
    rewrite getMimeTypeForFile_run, H.
    unfold getPrimaryMimeType, bind, definitionOf. now rewrite Hnone.
Qed.

(** With an empty table every name is still classified, as a generic
    file, and asking for its MIME type throws. *)
Lemma missing_entry_throws_witness :
  property [] FILE = None /\
  result (getDataTypeForFile "pose.json") [] = Normal FILE /\
  result (getMimeTypeForFile "pose.json") [] = TypeError /\
  result (validatePayloadSize (samplePayload FILE None)) [] = TypeError.
Proof.
  assert (H : property [] FILE = None) by reflexivity.
  destruct (missing_entry_throws [] FILE H) as (_ & _ & Hv & Hm).
  split; [exact H |]. split; [reflexivity |]. split.
  - apply Hm. reflexivity.
  - apply Hv. reflexivity.
Defined.

(* ===================================================================== *)
(** ** Edge cases of the fallbacks *)
(* ===================================================================== *)

(** A ceiling of 0 is no ceiling: on any table, a definition whose
    [maxSizeMB] is 0 makes every payload of that type valid, instead of
    rejecting every non-empty one. *)
Theorem validatePayloadSize_zero_ceiling :
  forall (tbl : Registry) (payload : DataPayload) (definition : DataTypeDefinition),
    property tbl (dataType payload) = Some definition ->
    maxSizeMB definition = Some 0%Z ->
    result (validatePayloadSize payload) tbl = Normal true.
Proof.
  intros tbl payload def Hp Hz. unfold result.
  rewrite (validatePayloadSize_run _ _ _ Hp), Hz. reflexivity.
Qed.

Lemma validatePayloadSize_zero_ceiling_witness :
  result (validatePayloadSize (samplePayload LOG (Some 5000000000%Z)))
         (singleEntry LOG ["text/plain"] [".log"] (Some 0%Z)) = Normal true.
Proof.
  eapply validatePayloadSize_zero_ceiling; reflexivity.
Defined.

(** Validity is downward closed in the size: on any table, if a payload is
    valid then so is every payload of the same type that is not larger. *)
Theorem validatePayloadSize_monotone :
  forall (tbl : Registry) (smaller larger : DataPayload) (a b : Z),
    dataType smaller = dataType larger ->
    originalSize smaller = Some a ->
    originalSize larger = Some b ->
    (a <= b)%Z ->
    result (validatePayloadSize larger) tbl = Normal true ->
    result (validatePayloadSize smaller) tbl = Normal true.
Proof.
  intros tbl smaller larger a b Ht Ha Hb Hle H. unfold result in *.
  destruct (property tbl (dataType larger)) as [def |] eqn:Hp.
  - rewrite (validatePayloadSize_run _ _ _ Hp) in H.
    rewrite <- Ht in Hp. rewrite (validatePayloadSize_run _ _ _ Hp).
    cbn [fst] in *. rewrite Ha. rewrite Hb in H. cbn [orZero] in *.
    destruct (truthyNumber (maxSizeMB def)); [| reflexivity].
    apply Normal_inj in H. f_equal.
    apply Z.leb_le. apply Z.leb_le in H. lia.
  - unfold validatePayloadSize, bind, definitionOf in H.
    rewrite Hp in H. discriminate H.
Qed.

Lemma validatePayloadSize_monotone_witness :
  call (validatePayloadSize (samplePayload IMAGES (Some 52428800%Z))) = Normal true /\
  call (validatePayloadSize (samplePayload IMAGES (Some 1024%Z))) = Normal true.
Proof.
  assert (H : call (validatePayloadSize (samplePayload IMAGES (Some 52428800%Z)))
              = Normal true) by reflexivity.
  split; [exact H |].
  apply (validatePayloadSize_monotone DATA_TYPE_DEFINITIONS
           (samplePayload IMAGES (Some 1024%Z))
           (samplePayload IMAGES (Some 52428800%Z)) 1024 52428800);
    first [exact H | reflexivity | lia].
Defined.

(** The default MIME type is what a definition without a usable first
    candidate gets: on any table, an empty [mimeTypes] list, or one that
    starts with the empty string, yields [application/octet-stream]. *)
Theorem getPrimaryMimeType_default :
  forall (tbl : Registry) (d : DataTypeEnum) (definition : DataTypeDefinition),
    property tbl d = Some definition ->
    (mimeTypes definition = [] \/
     exists others, mimeTypes definition = "" :: others) ->
    result (getPrimaryMimeType d) tbl = Normal "application/octet-stream".
Proof.
  intros tbl d def Hp Hm. unfold result.
  rewrite (getPrimaryMimeType_run _ _ _ Hp). cbn [fst].
  destruct Hm as [-> | [others ->]]; reflexivity.
Qed.

Lemma getPrimaryMimeType_default_witness :
  result (getPrimaryMimeType CSV) (singleEntry CSV [] [".csv"] None)
  = Normal "application/octet-stream" /\
  result (getPrimaryMimeType CSV) (singleEntry CSV [""; "text/csv"] [".csv"] None)
  = Normal "application/octet-stream".
Proof.
  split.
  - eapply getPrimaryMimeType_default; [reflexivity |]. left. reflexivity.
  - eapply getPrimaryMimeType_default; [reflexivity |].
    right. exists ["text/csv"]. reflexivity.
Defined.

(* ===================================================================== *)
(** ** The enumeration and the type guards *)
(* ===================================================================== *)

(** The members of [DataTypeEnum] have pairwise different string values,
    so comparing with [===] tells the members apart. *)
Theorem enumValue_distinct :
  NoDup (map enumValue allDataTypes) /\
  forall a b : DataTypeEnum, strictEq a b = true <-> a = b.
Proof.
  split.
  - unfold allDataTypes. cbn [map enumValue].
    repeat (constructor; [simpl; intuition discriminate |]). constructor.
  - intros a b. split.
    + destruct a, b; vm_compute; intro H; try reflexivity; discriminate H.
    + intros ->. apply String.eqb_refl.
Qed.

(** The nine type guards exclude one another, and they do not cover the
    enumeration: exactly one of them holds of a payload, except that none
    holds of a payload of type [parameters], which has no guard. *)
Theorem typeGuards_partition :
  forall payload : DataPayload,
    List.length (filter (fun guard => guard payload) typeGuards) =
    if strictEq (dataType payload) PARAMETERS then 0 else 1.
Proof.
  intro payload. destruct payload as [? ? ? d ? ? ? ? ? ? ? ? ?].
  destruct d; reflexivity.
Qed.

(* ===================================================================== *)
(** ** The generic type and the suffix test *)
(* ===================================================================== *)

Lemma property_In (tbl : Registry) (d : DataTypeEnum) (definition : DataTypeDefinition) :
  property tbl d = Some definition -> In (d, definition) tbl.
Proof.
  induction tbl as [| [k def] rest IH]; simpl; [discriminate |].
  destruct (strictEq k d) eqn:E.
  - apply strictEq_true_iff in E. intro H. injection H as <-. subst k. now left.
  - intro H. right. exact (IH H).
Qed.

(** For a specific type of the module's table, [matchesSuffix] is the test
    of the loop of [getDataTypeForFile]. *)
Lemma matchesSuffix_specific (filename : string) (d : DataTypeEnum)
      (definition : DataTypeDefinition) :
  In (d, definition) DATA_TYPE_DEFINITIONS -> d <> FILE ->
  call (matchesSuffix filename d) = Normal (suffixMatches definition filename).
Proof.
  intros Hin Hne. unfold call, result.
  rewrite (matchesSuffix_run _ _ _ _ (table_property _ _ Hin)). cbn [fst].
  simpl in Hin.
  repeat (destruct Hin as [Hin | Hin];
          [inversion Hin; subst; first [congruence | reflexivity] |]).
  destruct Hin.
Qed.

(** A name is a generic file exactly when [matchesSuffix] rejects it for
    every specific type. *)
Theorem getDataTypeForFile_FILE_iff :
  forall filename : string,
    call (getDataTypeForFile filename) = Normal FILE <->
    forall d : DataTypeEnum,
      d <> FILE -> call (matchesSuffix filename d) = Normal false.
Proof.
  intro filename. unfold call at 1. unfold result.
  rewrite getDataTypeForFile_run. cbn [fst]. split.
  - intros H d Hne. apply Normal_inj in H. rewrite loop_FILE_iff in H.
    destruct (table_ceilings d) as (def & _ & Hp & _).
    apply property_In in Hp.
    rewrite (matchesSuffix_specific _ _ _ Hp Hne). f_equal. exact (H d def Hp Hne).
  - intro H. f_equal. apply loop_FILE_iff. intros d def Hin Hne.
    specialize (H d Hne). rewrite (matchesSuffix_specific _ _ _ Hin Hne) in H.
    exact (Normal_inj _ _ H).
Qed.

Lemma getDataTypeForFile_FILE_iff_witness :
  call (getDataTypeForFile "notes.bak") = Normal FILE /\
  call (matchesSuffix "notes.bak" VIDEO) = Normal false.
Proof.
  assert (H : call (getDataTypeForFile "notes.bak") = Normal FILE) by reflexivity.
  split; [exact H |].
  apply (proj1 (getDataTypeForFile_FILE_iff "notes.bak") H VIDEO). discriminate.
Defined.
